(** * ArcadeDB scraper (resources/lib/scraper.py): candidate resolution,
      metadata and asset extraction over the internal disk cache.

    The Python object is embedded as explicit state passing: every method of
    [ArcadeDB] becomes a computation in a small state-and-exception monad over
    a [world] holding the scraper object, the caller's status dictionary and a
    trace of the calls made to the collaborators (network, disk cache). *)

From Stdlib Require Import ZArith String Ascii List.
From stdpp Require Import base option list gmap strings pretty countable.

Local Open Scope Z_scope.
Local Open Scope string_scope.

(** ** Python values *)

(** Scalars a decoded JSON member can hold (numbers are integers: the service
    sends integer player counts). *)
Inductive scalar :=
| SNone
| SBool (b : bool)
| SInt (z : Z)
| SStr (s : string).

#[global] Instance scalar_eq_dec : EqDecision scalar.
Proof. solve_decision. Defined.

(** Python's [str()] on a scalar; also what ['{}'.format(x)] prints. *)
Definition py_str (v : scalar) : string :=
  match v with
  | SNone => "None"
  | SBool true => "True"
  | SBool false => "False"
  | SInt z => pretty z
  | SStr s => s
  end.

(** Modelled from the spec: the [constants] module is absent; asset kinds are
    an enumerated media category.  The constructors are the asset constants
    that scraper.py names. *)
Inductive asset_ID :=
| ASSET_BANNER_ID
| ASSET_TITLE_ID
| ASSET_SNAP_ID
| ASSET_BOXFRONT_ID
| ASSET_BOXBACK_ID
| ASSET_CARTRIDGE_ID
| ASSET_FLYER_ID.

#[global] Instance asset_ID_eq_dec : EqDecision asset_ID.
Proof. solve_decision. Defined.

(** Values stored in an asset dictionary: scalars and asset kinds. *)
Inductive pyval :=
| VScalar (v : scalar)
| VAsset (a : asset_ID).

#[global] Instance pyval_eq_dec : EqDecision pyval.
Proof. solve_decision. Defined.

(** Exceptions the modelled code can raise. *)
Inductive exn :=
| ValueError (msg : string)
| KeyError (key : string)
| IndexError
| TypeError
| LogicError.

Inductive result (A : Type) :=
| Ret (a : A)
| Raise (e : exn).
Arguments Ret {A} a.
Arguments Raise {A} e.

(** ** Decoded upstream payload *)

(** One raw game record: a JSON object with scalar members. *)
Abbreviation gameinfo_dic := (gmap string scalar).

(** The decoded response object, read by the code through its ['result'] and
    ['message'] members only; either may be missing. *)
Record json_dic := {
  result_ : option (list gameinfo_dic);
  message : option scalar
}.

(** What [json.loads] can hand back: an object, or any other JSON value. *)
Inductive json :=
| JDict (d : json_dic)
| JOther.

(** [json_response_dic['result']] on whatever [_get_QUERY_MAME] returned
    ([None] included). *)
Definition getitem_result (j : option json) : result (list gameinfo_dic) :=
  match j with
  | Some (JDict d) =>
      match result_ d with
      | Some games => Ret games
      | None => Raise (KeyError "result")
      end
  | Some JOther | None => Raise TypeError
  end.

(** ** Scraper object, status dictionary, and the world *)

Inductive cache_type :=
| CACHE_CANDIDATES
| CACHE_METADATA
| CACHE_ASSETS
| CACHE_INTERNAL.

#[global] Instance cache_type_eq_dec : EqDecision cache_type.
Proof. solve_decision. Defined.

#[global] Instance cache_type_countable : Countable cache_type.
Proof.
  refine (inj_countable'
    (fun c => match c with
              | CACHE_CANDIDATES => 0%nat | CACHE_METADATA => 1%nat
              | CACHE_ASSETS => 2%nat | CACHE_INTERNAL => 3%nat end)
    (fun n => match n with
              | O => CACHE_CANDIDATES | 1%nat => CACHE_METADATA
              | 2%nat => CACHE_ASSETS | _ => CACHE_INTERNAL end) _).
  intros []; reflexivity.
Defined.

(** Modelled from the spec: the [Scraper] base class is absent.  Its state as
    far as scraper.py reads it: the disabled flag, the current cache key, the
    candidate set by the caller, and the namespaced disk cache. *)
Record Scraper := {
  scraper_disabled : bool;
  cache_key : string;
  candidate : option (gmap string scalar);
  disk_caches : gmap (cache_type * string) json_dic
}.

(** Modelled from the spec: the status object, a success flag and a message. *)
Record status := {
  status_ok : bool;
  msg : string
}.

Inductive event :=
| NetGet (url : string)
| CacheCheck (ns : cache_type) (key : string)
| CacheLoad (ns : cache_type) (key : string)
| CacheStore (ns : cache_type) (key : string).

Record world := {
  self : Scraper;
  status_dic : status;
  trace : list event
}.

Definition set_status (s : status) (w : world) : world :=
  {| self := self w; status_dic := s; trace := trace w |}.

Definition log_event (e : event) (w : world) : world :=
  {| self := self w; status_dic := status_dic w; trace := trace w ++ [e] |}.

Definition set_disk_caches (c : gmap (cache_type * string) json_dic)
    (w : world) : world :=
  {| self := {| scraper_disabled := scraper_disabled (self w);
                cache_key := cache_key (self w);
                candidate := candidate (self w);
                disk_caches := c |};
     status_dic := status_dic w; trace := trace w |}.

(** ** The monad: state passing with Python exceptions *)

Definition M (A : Type) : Type := world -> result A * world.

Definition ret {A} (a : A) : M A := fun w => (Ret a, w).
Definition raise {A} (e : exn) : M A := fun w => (Raise e, w).
Definition bind {A B} (m : M A) (k : A -> M B) : M B :=
  fun w => match m w with
           | (Ret a, w') => k a w'
           | (Raise e, w') => (Raise e, w')
           end.
Definition lift {A} (r : result A) : M A := fun w => (r, w).
Definition gets {A} (f : world -> A) : M A := fun w => (Ret (f w), w).
Definition modify (f : world -> world) : M unit := fun w => (Ret tt, f w).

Declare Scope py_scope.
Delimit Scope py_scope with py.
Notation "'let*' x ':=' m 'in' k" := (bind m (fun x => k))
  (at level 10, x pattern, m at level 100, k at level 200) : py_scope.
Local Open Scope py_scope.


(** ** Collaborators that live outside scraper.py *)

(** Modelled from the spec: [io.FileName] is absent; the resolver only asks a
    ROM file name for its base name without extension. *)
Record FileName := {
  getBaseNoExt : string
}.

(** The transport ([net.get_URL]: body or [None], and the HTTP code), the JSON
    decoder ([json.loads]: [None] stands for a raised decoding exception), the
    fresh dictionaries handed out by the base class, and the default content
    rating of the [constants] module.  Each operation queries the transport at
    most once, so a function of the URL covers every behaviour of the network
    during one call. *)
Record collaborators := {
  get_URL : string -> option string * Z;
  json_loads : string -> option json;
  new_candidate_dic : gmap string scalar;
  new_gamedata_dic : gmap string scalar;
  new_assetdata_dic : gmap string pyval;
  DEFAULT_META_ESRB : string
}.

Definition dquote : string := String (ascii_of_nat 34) EmptyString.

(** ** Disk cache *)

(** Modelled from the spec: the disk cache of the [Scraper] base class is
    absent.  [contains] is true if a payload was stored for (namespace, key);
    [store] inserts or overwrites.  The spec makes [load] a logic error
    unless a [contains] check returned true before it: every load below
    comes right after such a check ([internal_cache_payload]), and there it
    returns the stored payload.  The unguarded accessor
    [debug_get_QUERY_MAME_dic] of scraper.py is not modelled. *)
Definition _check_disk_cache (ns : cache_type) (key : string) : M bool :=
  let* _ := modify (log_event (CacheCheck ns key)) in
  gets (fun w => bool_decide (is_Some (disk_caches (self w) !! (ns, key)))).

Definition _update_disk_cache (ns : cache_type) (key : string)
    (data : json_dic) : M unit :=
  let* _ := modify (log_event (CacheStore ns key)) in
  modify (fun w => set_disk_caches (<[(ns, key) := data]> (disk_caches (self w))) w).

Definition _retrieve_from_disk_cache (ns : cache_type) (key : string)
    : M json_dic :=
  let* _ := modify (log_event (CacheLoad ns key)) in
  let* c := gets (fun w => disk_caches (self w) !! (ns, key)) in
  match c with
  | Some data => ret data
  | None => raise LogicError
  end.

(** Modelled from the spec: [_handle_error] and [_handle_exception] of the
    base class are absent; both set the status to failure with a message. *)
Definition _handle_error (user_msg : string) : M unit :=
  modify (set_status {| status_ok := false; msg := user_msg |}).

Definition _handle_exception (user_msg : string) : M unit :=
  _handle_error user_msg.

(** [status_dic['status']] *)
Definition get_status : M bool := gets (fun w => status_ok (status_dic w)).

(** ** Methods of [ArcadeDB] *)

Section ArcadeDB.
Variable E : collaborators.

Definition supported_asset_list : list asset_ID :=
  [ASSET_TITLE_ID; ASSET_SNAP_ID; ASSET_BOXFRONT_ID; ASSET_FLYER_ID].

Definition supports_asset_ID (a : asset_ID) : bool :=
  bool_decide (a ∈ supported_asset_list).

(** [net.get_URL], with the call recorded in the trace. *)
Definition net_get_URL (url : string) : M (option string * Z) :=
  let* _ := modify (log_event (NetGet url)) in
  ret (get_URL E url).

(** The [try] block of the non-200 branch: [json.loads] on the body, then
    the ['message'] member; any exception gives the fallback text. *)
Definition http_error_msg (page_data_raw : option string) : string :=
  match page_data_raw with
  | Some raw =>
      match json_loads E raw with
      | Some (JDict d) =>
          match message d with
          | Some m => py_str m
          | None => "Unknown/unspecified error."
          end
      | Some JOther | None => "Unknown/unspecified error."
      end
  | None => "Unknown/unspecified error."
  end.

Definition _retrieve_URL_as_JSON (url : string) : M (option json) :=
  let* response := net_get_URL url in
  let (page_data_raw, http_code) := response : option string * Z in
  if negb (http_code =? 200)%Z then
    let error_msg := http_error_msg page_data_raw in
    let* _ := _handle_error
      ("HTTP code " ++ pretty http_code ++ " message " ++
       dquote ++ error_msg ++ dquote) in
    ret None
  else
    match page_data_raw with
    | None =>
        let* _ := _handle_error "Network error/exception in net_get_URL()" in
        ret None
    | Some raw =>
        match json_loads E raw with
        | None =>
            let* _ := _handle_exception
              "Error decoding JSON data from ArcadeDB." in
            ret None
        | Some json_data => ret (Some json_data)
        end
    end.

Definition query_url (game_name : string) : string :=
  "http://adb.arcadeitalia.net/service_scraper.php?ajax=query_mame" ++
  ("&game_name=" ++ game_name).

(** The debug dump of the decoded data ([_dump_json_debug]) writes a file
    outside the modelled state and is left out, as are the logger calls. *)
Definition _get_QUERY_MAME (rombase_noext platform : string)
    : M (option json) :=
  let game_name := rombase_noext in
  let url := query_url game_name in
  let* json_data := _retrieve_URL_as_JSON url in
  let* ok := get_status in
  if negb ok then ret None
  else ret json_data.

(** [gameinfo_dic[key]] *)
Definition getitem (d : gmap string scalar) (key : string) : M scalar :=
  match d !! key with
  | Some v => ret v
  | None => raise (KeyError key)
  end.

(** The cardinality policy of [get_candidates], from [num_games = len(...)]
    to the final [return candidate_list]. *)
Definition get_candidates_policy (rombase_noext platform : string)
    (json_response_dic : option json)
    : M (option (list (gmap string scalar))) :=
  let* games := lift (getitem_result json_response_dic) in
  match games with
  | [] => ret (Some [])
  | [gameinfo_dic] =>
      let candidate := new_candidate_dic E in
      let candidate := <["id" := SStr rombase_noext]> candidate in
      let* title := getitem gameinfo_dic "title" in
      let candidate := <["display_name" := title]> candidate in
      let candidate := <["platform" := SStr platform]> candidate in
      let candidate := <["scraper_platform" := SStr platform]> candidate in
      let candidate := <["order" := SInt 1]> candidate in
      let* key := gets (fun w => cache_key (self w)) in
      let* _ :=
        match json_response_dic with
        | Some (JDict d) => _update_disk_cache CACHE_INTERNAL key d
        | Some JOther | None => raise TypeError
        end in
      ret (Some [candidate])
  | _ :: _ :: _ =>
      raise (ValueError
               "Unexpected number of games returned (more than one).")
  end.

Definition get_candidates (search_term : string) (rom_FN : FileName)
    (rom_checksums_FN : option FileName) (platform : string)
    : M (option (list (gmap string scalar))) :=
  let* disabled := gets (fun w => scraper_disabled (self w)) in
  if disabled then ret None
  else
    let rombase_noext := getBaseNoExt rom_FN in
    let* json_response_dic := _get_QUERY_MAME rombase_noext platform in
    let* ok := get_status in
    if negb ok then ret None
    else get_candidates_policy rombase_noext platform json_response_dic.

(** [json_response_dic['result'][0]] on a cached payload. *)
Definition first_game (d : json_dic) : M gameinfo_dic :=
  match result_ d with
  | None => raise (KeyError "result")
  | Some [] => raise IndexError
  | Some (g :: _) => ret g
  end.

(** The cache lookup shared by [get_metadata] and [get_assets]. *)
Definition internal_cache_payload : M json_dic :=
  let* key := gets (fun w => cache_key (self w)) in
  let* hit := _check_disk_cache CACHE_INTERNAL key in
  if hit then _retrieve_from_disk_cache CACHE_INTERNAL key
  else raise (ValueError "Logic error").

Definition get_metadata : M (gmap string scalar) :=
  let* disabled := gets (fun w => scraper_disabled (self w)) in
  if disabled then ret (new_gamedata_dic E)
  else
    let* json_response_dic := internal_cache_payload in
    let* gameinfo_dic := first_game json_response_dic in
    let gamedata := new_gamedata_dic E in
    let* title := getitem gameinfo_dic "title" in
    let gamedata := <["title" := title]> gamedata in
    let* year := getitem gameinfo_dic "year" in
    let gamedata := <["year" := year]> gamedata in
    let* genre := getitem gameinfo_dic "genre" in
    let gamedata := <["genre" := genre]> gamedata in
    let* manufacturer := getitem gameinfo_dic "manufacturer" in
    let gamedata := <["developer" := manufacturer]> gamedata in
    let* players := getitem gameinfo_dic "players" in
    let gamedata := <["nplayers" := SStr (py_str players)]> gamedata in
    let gamedata := <["esrb" := SStr (DEFAULT_META_ESRB E)]> gamedata in
    let* history := getitem gameinfo_dic "history" in
    let gamedata := <["plot" := history]> gamedata in
    ret gamedata.

Definition _get_asset_simple (data_dic : gameinfo_dic) (asset : asset_ID)
    (title_str key : string) : option (gmap string pyval) :=
  match data_dic !! key with
  | Some url =>
      let asset_data := new_assetdata_dic E in
      let asset_data := <["asset_ID" := VAsset asset]> asset_data in
      let asset_data := <["display_name" := VScalar (SStr title_str)]> asset_data in
      let asset_data := <["url_thumb" := VScalar url]> asset_data in
      let asset_data := <["url" := VScalar url]> asset_data in
      Some asset_data
  | None => None
  end.

(** [if asset_data is not None: all_asset_list.append(asset_data)] *)
Definition append_if (all_asset_list : list (gmap string pyval))
    (asset_data : option (gmap string pyval)) : list (gmap string pyval) :=
  match asset_data with
  | Some a => all_asset_list ++ [a]
  | None => all_asset_list
  end.

Definition _retrieve_all_assets (gameinfo_dic : gameinfo_dic)
    : list (gmap string pyval) :=
  let all_asset_list := [] in
  let all_asset_list := append_if all_asset_list
    (_get_asset_simple gameinfo_dic ASSET_BANNER_ID
       "Banner (Marquee)" "url_image_marquee") in
  let all_asset_list := append_if all_asset_list
    (_get_asset_simple gameinfo_dic ASSET_TITLE_ID
       "Title screenshot" "url_image_title") in
  let all_asset_list := append_if all_asset_list
    (_get_asset_simple gameinfo_dic ASSET_SNAP_ID
       "Snap screenshot" "url_image_ingame") in
  let all_asset_list := append_if all_asset_list
    (_get_asset_simple gameinfo_dic ASSET_BOXFRONT_ID
       "BoxFront (Cabinet)" "url_image_cabinet") in
  let all_asset_list := append_if all_asset_list
    (_get_asset_simple gameinfo_dic ASSET_FLYER_ID
       "Flyer" "url_image_flyer") in
  all_asset_list.

(** [asset_dic['asset_ID'] == asset_info_id] *)
Definition has_asset_ID (asset_info_id : asset_ID)
    (asset_dic : gmap string pyval) : bool :=
  bool_decide (asset_dic !! "asset_ID" = Some (VAsset asset_info_id)).

(** [self.candidate['id']], evaluated for the debug line that opens
    [get_assets]. *)
Definition candidate_id : M scalar :=
  let* c := gets (fun w => candidate (self w)) in
  match c with
  | Some c => getitem c "id"
  | None => raise TypeError
  end.

Definition get_assets (asset_info_id : asset_ID)
    : M (option (list (gmap string pyval))) :=
  let* disabled := gets (fun w => scraper_disabled (self w)) in
  if disabled then ret (Some [])
  else
    let* _ := candidate_id in
    let* json_response_dic := internal_cache_payload in
    let* gameinfo_dic := first_game json_response_dic in
    let all_asset_list := _retrieve_all_assets gameinfo_dic in
    let* ok := get_status in
    if negb ok then ret None
    else
      let asset_list := filter (fun a => has_asset_ID asset_info_id a = true)
                               all_asset_list in
      ret (Some asset_list).

End ArcadeDB.

(** ** Methods that need no collaborator *)

(** No need for URL cleaning in ArcadeDB. *)
Definition _clean_URL_for_log {A} (url : A) : A := url.

(** [selected_asset['url']] and its form for the log. *)
Definition resolve_asset_URL (selected_asset : gmap string pyval)
    : M (pyval * pyval) :=
  match selected_asset !! "url" with
  | Some url =>
      let url_log := _clean_URL_for_log url in
      ret (url, url_log)
  | None => raise (KeyError "url")
  end.

(** All ArcadeDB images are taken to be PNG. *)
Definition resolve_asset_URL_extension (selected_asset : gmap string pyval)
    (image_url : pyval) : string :=
  "png".

(** ** The scenario used to instantiate the results

    ROM [dino] on platform [MAME], with an upstream that knows one record for
    [dino], none for [nomatch], two for [twins], and answers 503 with a
    service message for [down]. *)
Module Scenario.

Definition dino : gameinfo_dic :=
  <["title" := SStr "Cadillacs and Dinosaurs (World 930201)"]>
  (<["year" := SStr "1993"]>
  (<["genre" := SStr "Beat-'Em-Up"]>
  (<["manufacturer" := SStr "Capcom"]>
  (<["players" := SInt 4]>
  (<["history" := SStr "..."]>
  (<["url_image_ingame" := SStr "http://.../dino_snap.png"]>
  (<["url_image_marquee" := SStr "http://.../dino_marquee.png"]> ∅))))))).

Definition dino_payload : json_dic :=
  {| result_ := Some [dino]; message := None |}.
Definition empty_payload : json_dic :=
  {| result_ := Some []; message := None |}.
Definition twins_payload : json_dic :=
  {| result_ := Some [dino; dino]; message := None |}.
Definition error_payload : json_dic :=
  {| result_ := None; message := Some (SStr "service unavailable") |}.

Definition E0 : collaborators :=
  {| get_URL := fun url =>
       if String.eqb url (query_url "dino") then (Some "one", 200)
       else if String.eqb url (query_url "nomatch") then (Some "zero", 200)
       else if String.eqb url (query_url "twins") then (Some "two", 200)
       else if String.eqb url (query_url "down") then (Some "error", 503)
       else (None, 500);
     json_loads := fun body =>
       if String.eqb body "one" then Some (JDict dino_payload)
       else if String.eqb body "zero" then Some (JDict empty_payload)
       else if String.eqb body "two" then Some (JDict twins_payload)
       else if String.eqb body "error" then Some (JDict error_payload)
       else None;
     new_candidate_dic := ∅;
     new_gamedata_dic := ∅;
     new_assetdata_dic := ∅;
     DEFAULT_META_ESRB := "Not Set" |}.

Definition rom (name : string) : FileName := {| getBaseNoExt := name |}.

(** The search term the test passes along; [get_candidates] ignores it. *)
Definition term : string := "Cadillacs and Dinosaurs (World 930201)".

Definition scraper (disabled : bool)
    (cache : gmap (cache_type * string) json_dic) : Scraper :=
  {| scraper_disabled := disabled;
     cache_key := "dino";
     candidate := Some (<["id" := SStr "dino"]> ∅);
     disk_caches := cache |}.

Definition ok_status : status :=
  {| status_ok := true; msg := "Scraper test was OK" |}.

(** Enabled scraper, nothing cached yet. *)
Definition fresh : world :=
  {| self := scraper false ∅; status_dic := ok_status; trace := [] |}.

(** Enabled scraper whose internal cache already holds a payload under the
    current key (here the no-record payload, so that it differs from what
    the upstream answers for [dino]). *)
Definition cached : world :=
  {| self := scraper false {[ (CACHE_INTERNAL, "dino") := empty_payload ]};
     status_dic := ok_status; trace := [] |}.

(** Enabled scraper after [dino] has been resolved. *)
Definition resolved : world :=
  {| self := scraper false {[ (CACHE_INTERNAL, "dino") := dino_payload ]};
     status_dic := ok_status; trace := [] |}.

Definition disabled : world :=
  {| self := scraper true ∅; status_dic := ok_status; trace := [] |}.

End Scenario.

(** Further worlds of the scenario. *)
Module Cases.
Import Scenario.

(** Enabled scraper handed a status that already reports a failure. *)
Definition failed_status : status :=
  {| status_ok := false; msg := "earlier failure" |}.

Definition fresh_failed : world :=
  {| self := scraper false ∅; status_dic := failed_status; trace := [] |}.

Definition resolved_failed : world :=
  {| self := scraper false {[ (CACHE_INTERNAL, "dino") := dino_payload ]};
     status_dic := failed_status; trace := [] |}.

(** A record without its history, and a cache holding it. *)
Definition dino_without_history : gameinfo_dic := delete "history" dino.

Definition partial_payload : json_dic :=
  {| result_ := Some [dino_without_history]; message := None |}.

Definition partial : world :=
  {| self := scraper false {[ (CACHE_INTERNAL, "dino") := partial_payload ]};
     status_dic := ok_status; trace := [] |}.





(** An upstream whose answers are well-formed JSON of the wrong shape. *)
Definition E_odd : collaborators :=
  {| get_URL := fun _ => (Some "odd", 200);
     json_loads := fun body =>
       if String.eqb body "odd" then Some (JDict error_payload) else None;
     new_candidate_dic := ∅;
     new_gamedata_dic := ∅;
     new_assetdata_dic := ∅;
     DEFAULT_META_ESRB := "Not Set" |}.

End Cases.

(** ** The asset derivation as the specification words it

    A fixed list of (asset kind, raw field name, display label) triples; each
    triple whose field is present yields one entry with both URLs equal to
    the field; absent fields are skipped.  [_retrieve_all_assets] is compared
    with this reading below. *)
Definition spec_asset_triples : list (asset_ID * string * string) :=
  [ (ASSET_BANNER_ID, "url_image_marquee", "Banner (Marquee)");
    (ASSET_TITLE_ID, "url_image_title", "Title screenshot");
    (ASSET_SNAP_ID, "url_image_ingame", "Snap screenshot");
    (ASSET_BOXFRONT_ID, "url_image_cabinet", "BoxFront (Cabinet)");
    (ASSET_FLYER_ID, "url_image_flyer", "Flyer") ].

Definition spec_asset_entry (E : collaborators) (kind : asset_ID)
    (label : string) (url : scalar) : gmap string pyval :=
  <["url" := VScalar url]>
  (<["url_thumb" := VScalar url]>
  (<["display_name" := VScalar (SStr label)]>
  (<["asset_ID" := VAsset kind]> (new_assetdata_dic E)))).

Definition spec_derive_assets (E : collaborators) (g : gameinfo_dic)
    : list (gmap string pyval) :=
  omap (fun t : asset_ID * string * string =>
          spec_asset_entry E t.1.1 t.2 <$> g !! t.1.2)
       spec_asset_triples.

(** * Results *)

(** ** Running the monad *)

Ltac run :=
  unfold bind, ret, raise, lift, gets, modify; cbn beta iota.

Lemma bind_Ret {A B} (m : M A) (k : A -> M B) w a w' :
  m w = (Ret a, w') -> bind m k w = k a w'.
Proof. intros H. unfold bind. rewrite H. reflexivity. Qed.

Lemma bind_Raise {A B} (m : M A) (k : A -> M B) w e w' :
  m w = (Raise e, w') -> bind m k w = (Raise e, w').
Proof. intros H. unfold bind. rewrite H. reflexivity. Qed.

Section Upstream.
Variable E : collaborators.

(** A successful fetch: HTTP 200 and a body that decodes. *)
Lemma _retrieve_URL_as_JSON_ok url raw j w :
  get_URL E url = (Some raw, 200) ->
  json_loads E raw = Some j ->
  _retrieve_URL_as_JSON E url w = (Ret (Some j), log_event (NetGet url) w).
Proof.
  intros Hurl Hjs. unfold _retrieve_URL_as_JSON, net_get_URL. run.
  rewrite Hurl. cbn. rewrite Hjs. reflexivity.
Qed.

Lemma _get_QUERY_MAME_ok rombase_noext platform raw j w :
  status_ok (status_dic w) = true ->
  get_URL E (query_url rombase_noext) = (Some raw, 200) ->
  json_loads E raw = Some j ->
  _get_QUERY_MAME E rombase_noext platform w
  = (Ret (Some j), log_event (NetGet (query_url rombase_noext)) w).
Proof.
  intros Hst Hurl Hjs. unfold _get_QUERY_MAME.
  erewrite bind_Ret by (eapply _retrieve_URL_as_JSON_ok; eauto).
  unfold get_status. run. cbn. rewrite Hst. reflexivity.
Qed.

End Upstream.


(** ** Resolver: [get_candidates] *)

Section Resolver.
Variable E : collaborators.
Variables (search_term : string) (rom_FN : FileName)
          (rom_checksums_FN : option FileName) (platform : string).

(** What [get_candidates] does once the upstream answered 200 with a body
    that decodes to [j], on an enabled scraper whose status is still good:
    the cardinality policy runs on [j] in the world after the fetch. *)
Lemma get_candidates_fetched raw j w :
  scraper_disabled (self w) = false ->
  status_ok (status_dic w) = true ->
  get_URL E (query_url (getBaseNoExt rom_FN)) = (Some raw, 200) ->
  json_loads E raw = Some j ->
  get_candidates E search_term rom_FN rom_checksums_FN platform w
  = get_candidates_policy E (getBaseNoExt rom_FN) platform (Some j)
      (log_event (NetGet (query_url (getBaseNoExt rom_FN))) w).
Proof.
  intros Hen Hst Hurl Hjs. unfold get_candidates.
  unfold bind at 1. unfold gets at 1. rewrite Hen.
  erewrite bind_Ret by (eapply _get_QUERY_MAME_ok; eauto).
  unfold bind at 1, get_status at 1, gets at 1. cbn. rewrite Hst.
  reflexivity.
Qed.

(** C6.  Zero records: on an enabled scraper with a good status, when the
    upstream answers 200 with a payload whose record list is empty,
    [get_candidates] returns the empty candidate list; the status is left as
    it was (still successful) and nothing is written to the disk cache. *)
Theorem get_candidates_zero_records raw d w :
  scraper_disabled (self w) = false ->
  status_ok (status_dic w) = true ->
  get_URL E (query_url (getBaseNoExt rom_FN)) = (Some raw, 200) ->
  json_loads E raw = Some (JDict d) ->
  result_ d = Some [] ->
  exists w',
    get_candidates E search_term rom_FN rom_checksums_FN platform w
    = (Ret (Some []), w') /\
    status_dic w' = status_dic w /\
    status_ok (status_dic w') = true /\
    disk_caches (self w') = disk_caches (self w).
Proof.
  intros Hen Hst Hurl Hjs Hres.
  rewrite (get_candidates_fetched raw (JDict d)) by assumption.
  unfold get_candidates_policy, getitem_result. rewrite Hres. run.
  eexists. split; [reflexivity|]. cbn. auto.
Qed.


(** Outside the hypothesis of the previous theorem: a single record with no
    title makes the display-name lookup fail with a key error, before
    anything is stored. *)
Remark get_candidates_record_without_title raw d g w :
  scraper_disabled (self w) = false ->
  status_ok (status_dic w) = true ->
  get_URL E (query_url (getBaseNoExt rom_FN)) = (Some raw, 200) ->
  json_loads E raw = Some (JDict d) ->
  result_ d = Some [g] ->
  g !! "title" = None ->
  exists w',
    get_candidates E search_term rom_FN rom_checksums_FN platform w
    = (Raise (KeyError "title"), w') /\
    disk_caches (self w') = disk_caches (self w).
Proof.
  intros Hen Hst Hurl Hjs Hres Htitle.
  rewrite (get_candidates_fetched raw (JDict d)) by assumption.
  unfold get_candidates_policy, getitem_result, getitem.
  rewrite Hres. run. rewrite Htitle. run.
  eexists. split; reflexivity.
Qed.

(** C2.  Two or more records: under the same conditions, a payload with at
    least two records makes [get_candidates] raise the cardinality fault.
    Nothing is returned, the status is left untouched, and the disk cache is
    not written. *)
Theorem get_candidates_many_records raw d g1 g2 rest w :
  scraper_disabled (self w) = false ->
  status_ok (status_dic w) = true ->
  get_URL E (query_url (getBaseNoExt rom_FN)) = (Some raw, 200) ->
  json_loads E raw = Some (JDict d) ->
  result_ d = Some (g1 :: g2 :: rest) ->
  exists w',
    get_candidates E search_term rom_FN rom_checksums_FN platform w
    = (Raise (ValueError
                "Unexpected number of games returned (more than one)."), w') /\
    status_dic w' = status_dic w /\
    disk_caches (self w') = disk_caches (self w).
Proof.
  intros Hen Hst Hurl Hjs Hres.
  rewrite (get_candidates_fetched raw (JDict d)) by assumption.
  unfold get_candidates_policy, getitem_result. rewrite Hres. run.
  eexists. split; [reflexivity|]. cbn. auto.
Qed.

End Resolver.

Section ResolverScenario.
Import Scenario.

Lemma get_candidates_zero_records_witness :
  scraper_disabled (self fresh) = false /\
  status_ok (status_dic fresh) = true /\
  result_ empty_payload = Some [] /\
  exists w',
    get_candidates E0 term (rom "nomatch") None "MAME" fresh
    = (Ret (Some []), w') /\
    status_dic w' = status_dic fresh /\
    status_ok (status_dic w') = true /\
    disk_caches (self w') = disk_caches (self fresh).
Proof.
  repeat split.
  apply (get_candidates_zero_records E0 term (rom "nomatch") None "MAME"
           "zero" empty_payload fresh); reflexivity.
Defined.


Lemma get_candidates_many_records_witness :
  scraper_disabled (self fresh) = false /\
  status_ok (status_dic fresh) = true /\
  result_ twins_payload = Some [dino; dino] /\
  exists w',
    get_candidates E0 term (rom "twins") None "MAME" fresh
    = (Raise (ValueError
                "Unexpected number of games returned (more than one)."), w') /\
    status_dic w' = status_dic fresh /\
    disk_caches (self w') = disk_caches (self fresh).
Proof.
  repeat split.
  apply (get_candidates_many_records E0 term (rom "twins") None "MAME"
           "two" twins_payload dino dino [] fresh); reflexivity.
Defined.

End ResolverScenario.

Section ResolverCounterexample.
Import Scenario Cases.


End ResolverCounterexample.

(** ** Resolver: the disabled flag, the cache, and upstream failures *)

Ltac run_all :=
  unfold get_candidates, get_candidates_policy, _get_QUERY_MAME,
    _retrieve_URL_as_JSON, net_get_URL, get_status, getitem_result, getitem,
    _update_disk_cache, _handle_exception, _handle_error;
  run.

Section ResolverEffects.
Variable E : collaborators.
Variables (search_term : string) (rom_FN : FileName)
          (rom_checksums_FN : option FileName) (platform : string).

Local Abbreviation url := (query_url (getBaseNoExt rom_FN)).


(** C9.  With the disabled flag set,
    [get_candidates] returns [None], [get_metadata] returns the default
    record of the base class and [get_assets] returns the empty list; each
    leaves the world exactly as it was: same status, same cache, and no
    network or cache event added to the trace. *)
Theorem disabled_scraper_is_silent asset_info_id w :
  scraper_disabled (self w) = true ->
  get_candidates E search_term rom_FN rom_checksums_FN platform w
  = (Ret None, w) /\
  get_metadata E w = (Ret (new_gamedata_dic E), w) /\
  get_assets E asset_info_id w = (Ret (Some []), w).
Proof.
  intros Hdis. unfold get_candidates, get_metadata, get_assets. run.
  rewrite Hdis. auto.
Qed.


(** C3 (amended).  [get_candidates] does not consult the disk cache: on an
    enabled scraper, whether or not the current key is already cached, the
    call queries the upstream exactly once, the only cache event it can add
    is the store of the one-record path, and its outcome is the same
    whatever the cache holds.  The cardinality check therefore runs on the
    upstream payload. *)
Theorem get_candidates_always_queries_upstream w :
  scraper_disabled (self w) = false ->
  (exists tl,
     trace (snd (get_candidates E search_term rom_FN rom_checksums_FN
                   platform w))
     = (trace w ++ NetGet url :: tl)%list /\
     (tl = [] \/ tl = [CacheStore CACHE_INTERNAL (cache_key (self w))])) /\
  forall cache',
    fst (get_candidates E search_term rom_FN rom_checksums_FN platform
           (set_disk_caches cache' w))
    = fst (get_candidates E search_term rom_FN rom_checksums_FN platform w).
Proof.
  intros Hen. split.
  - run_all. rewrite Hen.
    destruct (get_URL E url) as [body code].
    repeat (cbn -[append pretty] in *; case_match; simplify_eq);
      cbn -[append pretty]; rewrite <- ?app_assoc;
      eexists; (split; [reflexivity|auto]).
  - intros cache'. run_all. cbn -[append pretty]. rewrite Hen.
    destruct (get_URL E url) as [body code].
    repeat (cbn -[append pretty] in *; case_match; simplify_eq);
      reflexivity.
Qed.

End ResolverEffects.

Section ResolverEffectsScenario.
Import Scenario.

Lemma disabled_scraper_is_silent_witness :
  scraper_disabled (self disabled) = true /\
  get_candidates E0 term (rom "dino") None "MAME" disabled
  = (Ret None, disabled) /\
  get_metadata E0 disabled = (Ret (new_gamedata_dic E0), disabled) /\
  get_assets E0 ASSET_SNAP_ID disabled = (Ret (Some []), disabled).
Proof.
  split; [reflexivity|].
  apply (disabled_scraper_is_silent E0 term (rom "dino") None "MAME"
           ASSET_SNAP_ID disabled).
  reflexivity.
Defined.


(** C3, as stated, fails: the internal cache already holds the current key,
    the status is good and the scraper is enabled, yet [get_candidates]
    queries the upstream; its answer (one candidate) comes from the upstream
    payload and not from the cached one (which holds no record). *)
Lemma get_candidates_cached_key_still_queries :
  scraper_disabled (self cached) = false /\
  disk_caches (self cached) !! (CACHE_INTERNAL, cache_key (self cached))
  = Some empty_payload /\
  trace cached = [] /\
  trace (snd (get_candidates E0 term (rom "dino") None "MAME" cached))
  = [NetGet (query_url "dino"); CacheStore CACHE_INTERNAL "dino"] /\
  exists c,
    fst (get_candidates E0 term (rom "dino") None "MAME" cached)
    = Ret (Some [c]).
Proof.
  repeat split; try reflexivity.
  eexists. vm_compute. reflexivity.
Qed.

Lemma get_candidates_always_queries_upstream_witness :
  scraper_disabled (self cached) = false /\
  (exists tl,
     trace (snd (get_candidates E0 term (rom "dino") None "MAME" cached))
     = (trace cached ++ NetGet (query_url "dino") :: tl)%list /\
     (tl = [] \/ tl = [CacheStore CACHE_INTERNAL (cache_key (self cached))])) /\
  forall cache',
    fst (get_candidates E0 term (rom "dino") None "MAME"
           (set_disk_caches cache' cached))
    = fst (get_candidates E0 term (rom "dino") None "MAME" cached).
Proof.
  split; [reflexivity|].
  apply (get_candidates_always_queries_upstream E0 term (rom "dino") None
           "MAME" cached).
  reflexivity.
Defined.

End ResolverEffectsScenario.

(** ** Extractor: [get_metadata] and [get_assets] *)

Section Extractor.
Variable E : collaborators.

Lemma internal_cache_payload_hit d w :
  disk_caches (self w) !! (CACHE_INTERNAL, cache_key (self w)) = Some d ->
  internal_cache_payload w
  = (Ret d, log_event (CacheLoad CACHE_INTERNAL (cache_key (self w)))
              (log_event (CacheCheck CACHE_INTERNAL (cache_key (self w))) w)).
Proof.
  intros Hc. unfold internal_cache_payload, _check_disk_cache,
    _retrieve_from_disk_cache. run. cbn. rewrite Hc. cbn. rewrite Hc.
  reflexivity.
Qed.

Lemma internal_cache_payload_miss w :
  disk_caches (self w) !! (CACHE_INTERNAL, cache_key (self w)) = None ->
  internal_cache_payload w
  = (Raise (ValueError "Logic error"),
     log_event (CacheCheck CACHE_INTERNAL (cache_key (self w))) w).
Proof.
  intros Hc. unfold internal_cache_payload, _check_disk_cache. run. cbn.
  rewrite Hc. reflexivity.
Qed.

(** No upstream query between two worlds: every network event of the later
    trace was already in the earlier one. *)
Lemma no_query_log_cache w ns key url :
  NetGet url ∈ trace (log_event (CacheCheck ns key) w) ->
  NetGet url ∈ trace w.
Proof.
  cbn. rewrite elem_of_app, list_elem_of_singleton.
  intros [H|H]; [exact H|discriminate].
Qed.

(** C5.  With the scraper enabled and the current key absent from the
    internal namespace, [get_metadata] raises the logic error, and so does
    [get_assets] once a candidate is set (its opening debug line reads the
    candidate's id).  Whatever the candidate, [get_assets] ends in a raised
    fault.  In every case the status is untouched and no upstream query is
    issued: the only event added is the cache check. *)
Theorem extraction_requires_cached_key asset_info_id w :
  scraper_disabled (self w) = false ->
  disk_caches (self w) !! (CACHE_INTERNAL, cache_key (self w)) = None ->
  get_metadata E w
  = (Raise (ValueError "Logic error"),
     log_event (CacheCheck CACHE_INTERNAL (cache_key (self w))) w) /\
  (forall c i,
     candidate (self w) = Some c -> c !! "id" = Some i ->
     get_assets E asset_info_id w
     = (Raise (ValueError "Logic error"),
        log_event (CacheCheck CACHE_INTERNAL (cache_key (self w))) w)) /\
  (exists e w',
     get_assets E asset_info_id w = (Raise e, w') /\
     status_dic w' = status_dic w /\
     forall url, NetGet url ∈ trace w' -> NetGet url ∈ trace w) /\
  (forall url,
     NetGet url
       ∈ trace (log_event (CacheCheck CACHE_INTERNAL (cache_key (self w))) w) ->
     NetGet url ∈ trace w).
Proof.
  intros Hen Hmiss.
  assert (Hassets : forall c i,
     candidate (self w) = Some c -> c !! "id" = Some i ->
     get_assets E asset_info_id w
     = (Raise (ValueError "Logic error"),
        log_event (CacheCheck CACHE_INTERNAL (cache_key (self w))) w)).
  { intros c i Hc Hid. unfold get_assets.
    unfold bind at 1. unfold gets at 1. rewrite Hen.
    erewrite bind_Ret; [|unfold candidate_id, getitem; run; rewrite Hc, Hid;
                         reflexivity].
    erewrite bind_Raise by (apply internal_cache_payload_miss; exact Hmiss).
    reflexivity. }
  repeat split.
  - unfold get_metadata. unfold bind at 1. unfold gets at 1. rewrite Hen.
    erewrite bind_Raise by (apply internal_cache_payload_miss; exact Hmiss).
    reflexivity.
  - exact Hassets.
  - destruct (candidate (self w)) as [c|] eqn:Hc.
    + destruct (c !! "id") as [i|] eqn:Hid.
      * eexists _, _. split; [eapply Hassets; eauto|].
        split; [reflexivity|]. intros url. apply no_query_log_cache.
      * eexists _, _. split.
        { unfold get_assets, candidate_id, getitem. run.
          rewrite Hen, Hc, Hid. reflexivity. }
        auto.
    + eexists _, _. split.
      { unfold get_assets, candidate_id. run. rewrite Hen, Hc. reflexivity. }
      auto.
  - intros url. apply no_query_log_cache.
Qed.

(** C7.  For a cached payload whose first record carries the six projected
    fields (the player count being a number), [get_metadata] on an enabled
    scraper returns the record in which title, year and genre are the
    record's own, developer is its manufacturer, the player count is the
    number printed in decimal, plot is its history and the rating is the
    default constant; every other key keeps the value of the default record.
    The call adds only the cache check and load to the trace. *)
Theorem get_metadata_projection d g rest title year genre manufacturer
    players history w :
  scraper_disabled (self w) = false ->
  disk_caches (self w) !! (CACHE_INTERNAL, cache_key (self w)) = Some d ->
  result_ d = Some (g :: rest) ->
  g !! "title" = Some title ->
  g !! "year" = Some year ->
  g !! "genre" = Some genre ->
  g !! "manufacturer" = Some manufacturer ->
  g !! "players" = Some (SInt players) ->
  g !! "history" = Some history ->
  exists gamedata,
    get_metadata E w
    = (Ret gamedata,
       log_event (CacheLoad CACHE_INTERNAL (cache_key (self w)))
         (log_event (CacheCheck CACHE_INTERNAL (cache_key (self w))) w)) /\
    gamedata !! "title" = Some title /\
    gamedata !! "year" = Some year /\
    gamedata !! "genre" = Some genre /\
    gamedata !! "developer" = Some manufacturer /\
    gamedata !! "nplayers" = Some (SStr (pretty players)) /\
    gamedata !! "plot" = Some history /\
    gamedata !! "esrb" = Some (SStr (DEFAULT_META_ESRB E)) /\
    forall key,
      key ∉ ["title"; "year"; "genre"; "developer"; "nplayers"; "esrb"; "plot"] ->
      gamedata !! key = new_gamedata_dic E !! key.
Proof.
  intros Hen Hc Hres Ht Hy Hg Hm Hp Hh.
  unfold get_metadata. unfold bind at 1. unfold gets at 1. rewrite Hen.
  erewrite bind_Ret by (apply internal_cache_payload_hit; exact Hc).
  unfold first_game, getitem. rewrite Hres. run.
  rewrite Ht. run. rewrite Hy. run. rewrite Hg. run. rewrite Hm. run.
  rewrite Hp. run. rewrite Hh. run.
  eexists. split; [reflexivity|].
  repeat split; try by simplify_map_eq.
  intros key Hkey. repeat rewrite not_elem_of_cons in Hkey.
  destruct Hkey as (? & ? & ? & ? & ? & ? & ? & _).
  by rewrite !lookup_insert_ne by done.
Qed.

(** *** Assets *)

Lemma _get_asset_simple_spec (g : gameinfo_dic) kind label field :
  _get_asset_simple E g kind label field
  = spec_asset_entry E kind label <$> g !! field.
Proof. unfold _get_asset_simple. destruct (g !! field); reflexivity. Qed.

(** The five calls of [_retrieve_all_assets] are the derivation over the
    fixed triples, in their order. *)
Lemma _retrieve_all_assets_spec (g : gameinfo_dic) :
  _retrieve_all_assets E g = spec_derive_assets E g.
Proof.
  unfold _retrieve_all_assets, spec_derive_assets, spec_asset_triples.
  rewrite !_get_asset_simple_spec. cbn.
  destruct (g !! "url_image_marquee"), (g !! "url_image_title"),
    (g !! "url_image_ingame"), (g !! "url_image_cabinet"),
    (g !! "url_image_flyer"); reflexivity.
Qed.

Lemma spec_asset_entry_lookup kind label url :
  spec_asset_entry E kind label url !! "asset_ID" = Some (VAsset kind) /\
  spec_asset_entry E kind label url !! "display_name"
  = Some (VScalar (SStr label)) /\
  spec_asset_entry E kind label url !! "url_thumb" = Some (VScalar url) /\
  spec_asset_entry E kind label url !! "url" = Some (VScalar url).
Proof. unfold spec_asset_entry. repeat split; by simplify_map_eq. Qed.

Lemma has_asset_ID_entry asset_info_id kind label url :
  has_asset_ID asset_info_id (spec_asset_entry E kind label url) = true
  <-> kind = asset_info_id.
Proof.
  unfold has_asset_ID.
  destruct (spec_asset_entry_lookup kind label url) as [-> _].
  rewrite bool_decide_eq_true. split; [congruence|intros ->; reflexivity].
Qed.

(** Filtering the derived entries by kind is deriving from the triples of
    that kind. *)
Lemma filter_derived_by_kind asset_info_id (g : gameinfo_dic)
    (triples : list (asset_ID * string * string)) :
  filter (fun a => has_asset_ID asset_info_id a = true)
    (omap (fun t : asset_ID * string * string =>
             spec_asset_entry E t.1.1 t.2 <$> g !! t.1.2) triples)
  = omap (fun t : asset_ID * string * string =>
            spec_asset_entry E t.1.1 t.2 <$> g !! t.1.2)
      (filter (fun t : asset_ID * string * string => t.1.1 = asset_info_id)
         triples).
Proof.
  induction triples as [|[[kind field] label] triples IH]; [reflexivity|].
  destruct (decide (kind = asset_info_id)) as [Heq|Hne].
  - rewrite (filter_cons_True (fun t : asset_ID * string * string =>
                                 t.1.1 = asset_info_id)) by exact Heq.
    cbn [omap list_omap fst snd]. destruct (g !! field) as [url|];
      cbn [fmap option_fmap option_map].
    + rewrite filter_cons_True by (by apply has_asset_ID_entry).
      by rewrite IH.
    + exact IH.
  - rewrite (filter_cons_False (fun t : asset_ID * string * string =>
                                  t.1.1 = asset_info_id)) by exact Hne.
    cbn [omap list_omap fst snd]. destruct (g !! field) as [url|];
      cbn [fmap option_fmap option_map].
    + rewrite filter_cons_False by (by rewrite has_asset_ID_entry).
      exact IH.
    + exact IH.
Qed.

(** [get_assets] past its guards: the payload is loaded from the cache, the
    whole derivation runs on the first record, and the list is filtered. *)
Lemma get_assets_cached asset_info_id c i d g rest w :
  scraper_disabled (self w) = false ->
  candidate (self w) = Some c ->
  c !! "id" = Some i ->
  status_ok (status_dic w) = true ->
  disk_caches (self w) !! (CACHE_INTERNAL, cache_key (self w)) = Some d ->
  result_ d = Some (g :: rest) ->
  get_assets E asset_info_id w
  = (Ret (Some (filter (fun a => has_asset_ID asset_info_id a = true)
                       (_retrieve_all_assets E g))),
     log_event (CacheLoad CACHE_INTERNAL (cache_key (self w)))
       (log_event (CacheCheck CACHE_INTERNAL (cache_key (self w))) w)).
Proof.
  intros Hen Hc Hid Hst Hcache Hres. unfold get_assets.
  unfold bind at 1. unfold gets at 1. rewrite Hen.
  erewrite bind_Ret; [|unfold candidate_id, getitem; run; rewrite Hc, Hid;
                       reflexivity].
  erewrite bind_Ret by (apply internal_cache_payload_hit; exact Hcache).
  unfold first_game, get_status. rewrite Hres. run. cbn. rewrite Hst.
  reflexivity.
Qed.

(** C8.  For a cached record and any requested kind, [get_assets] (enabled
    scraper, candidate set, good status) computes the whole derivation over
    the five fixed triples and returns the entries of the requested kind:
    an entry is returned exactly when it is the entry of a triple of that
    kind whose raw field is present, and its thumbnail and full URL are both
    that field's value.  Absent fields contribute nothing. *)
Theorem get_assets_derive_then_filter asset_info_id c i d g rest w :
  scraper_disabled (self w) = false ->
  candidate (self w) = Some c ->
  c !! "id" = Some i ->
  status_ok (status_dic w) = true ->
  disk_caches (self w) !! (CACHE_INTERNAL, cache_key (self w)) = Some d ->
  result_ d = Some (g :: rest) ->
  exists asset_list,
    get_assets E asset_info_id w
    = (Ret (Some asset_list),
       log_event (CacheLoad CACHE_INTERNAL (cache_key (self w)))
         (log_event (CacheCheck CACHE_INTERNAL (cache_key (self w))) w)) /\
    _retrieve_all_assets E g = spec_derive_assets E g /\
    asset_list = filter (fun a => has_asset_ID asset_info_id a = true)
                        (spec_derive_assets E g) /\
    (forall e,
       e ∈ asset_list <->
       (exists field label url,
          (asset_info_id, field, label) ∈ spec_asset_triples /\
          g !! field = Some url /\
          e = spec_asset_entry E asset_info_id label url)) /\
    (forall e,
       e ∈ asset_list ->
       e !! "asset_ID" = Some (VAsset asset_info_id) /\
       exists url,
         e !! "url" = Some (VScalar url) /\
         e !! "url_thumb" = Some (VScalar url)).
Proof.
  intros Hen Hc Hid Hst Hcache Hres.
  assert (Hchar : forall e,
    e ∈ filter (fun a => has_asset_ID asset_info_id a = true)
          (spec_derive_assets E g) <->
    (exists field label url,
       (asset_info_id, field, label) ∈ spec_asset_triples /\
       g !! field = Some url /\
       e = spec_asset_entry E asset_info_id label url)).
  { intros e. rewrite list_elem_of_filter. unfold spec_derive_assets.
    rewrite list_elem_of_omap. split.
    - intros (Hkind & [[kind field] label] & Hin & Hentry).
      cbn in Hentry. apply fmap_Some in Hentry as (url & Hurl & ->).
      apply has_asset_ID_entry in Hkind as ->. eauto 6.
    - intros (field & label & url & Hin & Hurl & ->). split.
      + by apply has_asset_ID_entry.
      + exists (asset_info_id, field, label). split; [exact Hin|].
        cbn. rewrite Hurl. reflexivity. }
  eexists. split; [eapply get_assets_cached; eauto|].
  rewrite _retrieve_all_assets_spec. repeat split.
  - apply Hchar.
  - apply Hchar.
  - apply Hchar in H as (field & label & url & _ & _ & ->).
    apply spec_asset_entry_lookup.
  - apply Hchar in H as (field & label & url & _ & _ & ->).
    exists url. split; apply spec_asset_entry_lookup.
Qed.

(** C10.  A cached record that carries [url_image_marquee] makes
    [get_assets], asked for the banner kind, return the banner entry (and
    only it), although the banner kind is not in the declared supported
    asset list and [supports_asset_ID] answers false for it. *)
Theorem get_assets_banner_not_advertised c i d g rest url w :
  scraper_disabled (self w) = false ->
  candidate (self w) = Some c ->
  c !! "id" = Some i ->
  status_ok (status_dic w) = true ->
  disk_caches (self w) !! (CACHE_INTERNAL, cache_key (self w)) = Some d ->
  result_ d = Some (g :: rest) ->
  g !! "url_image_marquee" = Some url ->
  exists banner w',
    get_assets E ASSET_BANNER_ID w = (Ret (Some [banner]), w') /\
    banner !! "asset_ID" = Some (VAsset ASSET_BANNER_ID) /\
    banner !! "display_name" = Some (VScalar (SStr "Banner (Marquee)")) /\
    banner !! "url" = Some (VScalar url) /\
    banner !! "url_thumb" = Some (VScalar url) /\
    (ASSET_BANNER_ID ∉ supported_asset_list) /\
    supports_asset_ID ASSET_BANNER_ID = false.
Proof.
  intros Hen Hc Hid Hst Hcache Hres Hurl.
  exists (spec_asset_entry E ASSET_BANNER_ID "Banner (Marquee)" url).
  eexists. split.
  - erewrite get_assets_cached by eauto.
    rewrite _retrieve_all_assets_spec.
    unfold spec_derive_assets. rewrite filter_derived_by_kind.
    assert (Hkind :
      filter (fun t : asset_ID * string * string => t.1.1 = ASSET_BANNER_ID)
        spec_asset_triples
      = [(ASSET_BANNER_ID, "url_image_marquee", "Banner (Marquee)")])
      by reflexivity.
    rewrite Hkind. cbn. rewrite Hurl. reflexivity.
  - pose proof (spec_asset_entry_lookup ASSET_BANNER_ID "Banner (Marquee)"
                  url) as (? & ? & ? & ?).
    repeat split; try assumption.
    unfold supported_asset_list.
    rewrite !not_elem_of_cons. repeat split; try discriminate.
    apply not_elem_of_nil.
Qed.

End Extractor.


Section ExtractorScenario.
Import Scenario.

Lemma extraction_requires_cached_key_witness :
  scraper_disabled (self fresh) = false /\
  disk_caches (self fresh) !! (CACHE_INTERNAL, cache_key (self fresh)) = None /\
  get_metadata E0 fresh
  = (Raise (ValueError "Logic error"),
     log_event (CacheCheck CACHE_INTERNAL "dino") fresh) /\
  get_assets E0 ASSET_SNAP_ID fresh
  = (Raise (ValueError "Logic error"),
     log_event (CacheCheck CACHE_INTERNAL "dino") fresh).
Proof.
  split; [reflexivity|]. split; [reflexivity|].
  destruct (extraction_requires_cached_key E0 ASSET_SNAP_ID fresh)
    as (Hmeta & Hassets & _); try reflexivity.
  split; [exact Hmeta|].
  apply (Hassets (<["id" := SStr "dino"]> ∅) (SStr "dino")); reflexivity.
Defined.

(** The metadata of the scenario: four players, developer Capcom. *)
Lemma get_metadata_projection_witness :
  scraper_disabled (self resolved) = false /\
  dino !! "players" = Some (SInt 4) /\
  dino !! "manufacturer" = Some (SStr "Capcom") /\
  exists gamedata,
    fst (get_metadata E0 resolved) = Ret gamedata /\
    gamedata !! "nplayers" = Some (SStr "4") /\
    gamedata !! "developer" = Some (SStr "Capcom") /\
    gamedata !! "esrb" = Some (SStr "Not Set").
Proof.
  split; [reflexivity|]. split; [reflexivity|]. split; [reflexivity|].
  destruct (get_metadata_projection E0 dino_payload dino []
              (SStr "Cadillacs and Dinosaurs (World 930201)")
              (SStr "1993") (SStr "Beat-'Em-Up") (SStr "Capcom") 4
              (SStr "...") resolved)
    as (gamedata & Hrun & _ & _ & _ & Hdev & Hn & _ & Hesrb & _);
    try reflexivity.
  exists gamedata. rewrite Hrun. repeat split; assumption.
Defined.

(** The snapshot of the scenario: one entry carrying the in-game URL. *)
Lemma get_assets_derive_then_filter_witness :
  scraper_disabled (self resolved) = false /\
  status_ok (status_dic resolved) = true /\
  dino !! "url_image_ingame" = Some (SStr "http://.../dino_snap.png") /\
  exists asset_list,
    fst (get_assets E0 ASSET_SNAP_ID resolved) = Ret (Some asset_list) /\
    spec_asset_entry E0 ASSET_SNAP_ID "Snap screenshot"
      (SStr "http://.../dino_snap.png") ∈ asset_list.
Proof.
  split; [reflexivity|]. split; [reflexivity|]. split; [reflexivity|].
  destruct (get_assets_derive_then_filter E0 ASSET_SNAP_ID
              (<["id" := SStr "dino"]> ∅) (SStr "dino") dino_payload dino []
              resolved)
    as (asset_list & Hrun & _ & _ & Hchar & _); try reflexivity.
  exists asset_list. rewrite Hrun. split; [reflexivity|].
  apply Hchar. exists "url_image_ingame", "Snap screenshot",
    (SStr "http://.../dino_snap.png").
  split; [|split; reflexivity].
  unfold spec_asset_triples. do 2 apply list_elem_of_further.
  apply list_elem_of_here.
Defined.

Lemma get_assets_banner_not_advertised_witness :
  scraper_disabled (self resolved) = false /\
  dino !! "url_image_marquee" = Some (SStr "http://.../dino_marquee.png") /\
  exists banner,
    fst (get_assets E0 ASSET_BANNER_ID resolved) = Ret (Some [banner]) /\
    banner !! "url" = Some (VScalar (SStr "http://.../dino_marquee.png")) /\
    supports_asset_ID ASSET_BANNER_ID = false.
Proof.
  split; [reflexivity|]. split; [reflexivity|].
  destruct (get_assets_banner_not_advertised E0
              (<["id" := SStr "dino"]> ∅) (SStr "dino") dino_payload dino []
              (SStr "http://.../dino_marquee.png") resolved)
    as (banner & w' & Hrun & _ & _ & Hurl & _ & _ & Hsup); try reflexivity.
  exists banner. rewrite Hrun. repeat split; assumption.
Defined.

End ExtractorScenario.

(** * Further properties of the resolver *)

Ltac in_list :=
  repeat first [apply list_elem_of_here | apply list_elem_of_further].

Ltac split_run :=
  repeat (cbn -[append pretty] in *; case_match; simplify_eq);
  cbn -[append pretty] in *.

Section ResolverMore.
Variable E : collaborators.
Variables (search_term : string) (rom_FN : FileName)
          (rom_checksums_FN : option FileName) (platform : string).

Local Abbreviation url := (query_url (getBaseNoExt rom_FN)).

(** The two ways [_retrieve_URL_as_JSON] can end. *)
Lemma _retrieve_URL_as_JSON_cases any_url w :
  exists r w',
    _retrieve_URL_as_JSON E any_url w = (Ret r, w') /\
    trace w' = (trace w ++ [NetGet any_url])%list /\
    self w' = self w /\
    ((exists raw j,
        r = Some j /\ get_URL E any_url = (Some raw, 200) /\
        json_loads E raw = Some j /\ status_dic w' = status_dic w) \/
     (r = None /\ status_ok (status_dic w') = false)).
Proof.
  unfold _retrieve_URL_as_JSON, net_get_URL, _handle_exception,
    _handle_error. run.
  destruct (get_URL E any_url) as [body code] eqn:Hurl.
  destruct (Z.eqb_spec code 200) as [->|Hne]; cbn -[append pretty].
  - destruct body as [raw|]; [|eauto 10].
    destruct (json_loads E raw) as [j|] eqn:Hjs; [|eauto 10].
    eexists _, _. split; [reflexivity|]. repeat split. left. eauto 10.
  - eauto 10.
Qed.

(** [_retrieve_URL_as_JSON] never raises.  It queries the transport once and
    leaves the scraper object alone; it hands back decoded data only for a
    200 answer whose body decodes, and then leaves the status as it was; in
    every other case it returns [None] with the status set to failure. *)
Theorem _retrieve_URL_as_JSON_none_iff_failure any_url w :
  exists r w',
    _retrieve_URL_as_JSON E any_url w = (Ret r, w') /\
    trace w' = (trace w ++ [NetGet any_url])%list /\
    self w' = self w /\
    ((exists raw j,
        r = Some j /\ get_URL E any_url = (Some raw, 200) /\
        json_loads E raw = Some j /\ status_dic w' = status_dic w) \/
     (r = None /\ status_ok (status_dic w') = false)).
Proof. exact (_retrieve_URL_as_JSON_cases any_url w). Qed.

(** A status that already reports a failure on entry makes [get_candidates]
    return [None] whatever the upstream answers, a well-formed one-record
    payload included.  The upstream is still queried once; nothing is
    written to the cache and the failure stays. *)
Theorem get_candidates_failed_status_on_entry w :
  scraper_disabled (self w) = false ->
  status_ok (status_dic w) = false ->
  exists w',
    get_candidates E search_term rom_FN rom_checksums_FN platform w
    = (Ret None, w') /\
    status_ok (status_dic w') = false /\
    disk_caches (self w') = disk_caches (self w) /\
    trace w' = (trace w ++ [NetGet url])%list.
Proof.
  intros Hen Hst. unfold get_candidates, _get_QUERY_MAME.
  unfold bind at 1. unfold gets at 1. rewrite Hen.
  destruct (_retrieve_URL_as_JSON_cases url w)
    as (r & w' & Hrun & Htr & Hself & Hcase).
  unfold bind at 1. erewrite bind_Ret by exact Hrun.
  assert (Hfalse : status_ok (status_dic w') = false).
  { destruct Hcase as [(raw & j & _ & _ & _ & Hsame)|[_ Hf]];
      [by rewrite Hsame|exact Hf]. }
  unfold bind at 1, get_status at 1, gets at 1. rewrite Hfalse.
  unfold bind at 1. cbn. rewrite Hfalse. cbn.
  eexists. split; [reflexivity|]. rewrite Hself. auto.
Qed.

(** What [get_candidates] can do to the disk cache, in any world: either it
    leaves it as it was, or it has returned exactly one candidate and added
    one entry, under the current key of the internal namespace, whose
    payload is the decoded upstream answer, holds exactly one record and
    that record has a title.  No other entry is ever touched, and the
    scraper's flag, key and candidate are never changed. *)
Theorem get_candidates_cache_discipline w :
  exists r w',
    get_candidates E search_term rom_FN rom_checksums_FN platform w
    = (r, w') /\
    scraper_disabled (self w') = scraper_disabled (self w) /\
    cache_key (self w') = cache_key (self w) /\
    candidate (self w') = candidate (self w) /\
    (disk_caches (self w') = disk_caches (self w) \/
     exists raw d g title c,
       r = Ret (Some [c]) /\
       get_URL E url = (Some raw, 200) /\
       json_loads E raw = Some (JDict d) /\
       result_ d = Some [g] /\
       g !! "title" = Some title /\
       disk_caches (self w')
       = <[(CACHE_INTERNAL, cache_key (self w)) := d]> (disk_caches (self w))).
Proof.
  run_all.
  destruct (get_URL E url) as [body code] eqn:Hurl.
  destruct (Z.eqb_spec code 200) as [->|Hne];
    split_run; eexists _, _; (split; [reflexivity|]); cbn;
    repeat split; eauto 12.
Qed.

(** [get_candidates] never turns a status into a success: after the call the
    status is the one it was given, or it is a failure and the call has
    returned [None]. *)
Theorem get_candidates_failure_means_None w :
  exists r w',
    get_candidates E search_term rom_FN rom_checksums_FN platform w
    = (r, w') /\
    (status_dic w' = status_dic w \/
     (status_ok (status_dic w') = false /\ r = Ret None)).
Proof.
  run_all.
  destruct (get_URL E url) as [body code] eqn:Hurl.
  split_run; eexists _, _; (split; [reflexivity|]); cbn; auto.
Qed.

(** The platform only reaches the candidate: the world after the call (the
    upstream URL queried, the status, the cache) is the same for any two
    platforms. *)
Theorem get_candidates_platform_not_queried platform' w :
  snd (get_candidates E search_term rom_FN rom_checksums_FN platform w)
  = snd (get_candidates E search_term rom_FN rom_checksums_FN platform' w).
Proof.
  run_all.
  destruct (get_URL E url) as [body code] eqn:Hurl.
  split_run; reflexivity.
Qed.

(** A 200 answer that decodes to something other than a payload with a
    record list is not reported through the status: a decoded object without
    ['result'] raises a key error, a decoded non-object a type error; the
    status stays good and the cache is not written. *)
Theorem get_candidates_malformed_payload raw j w :
  scraper_disabled (self w) = false ->
  status_ok (status_dic w) = true ->
  get_URL E url = (Some raw, 200) ->
  json_loads E raw = Some j ->
  match j with JDict d => result_ d = None | JOther => True end ->
  exists w',
    get_candidates E search_term rom_FN rom_checksums_FN platform w
    = (Raise (match j with
              | JDict _ => KeyError "result"
              | JOther => TypeError
              end), w') /\
    status_dic w' = status_dic w /\
    disk_caches (self w') = disk_caches (self w).
Proof.
  intros Hen Hst Hurl Hjs Hshape.
  rewrite (get_candidates_fetched E search_term rom_FN rom_checksums_FN
             platform raw j) by assumption.
  unfold get_candidates_policy, getitem_result. run.
  destruct j as [d|]; [rewrite Hshape|];
    (eexists; split; [reflexivity|]; cbn; auto).
Qed.

End ResolverMore.

Section ResolverMoreScenario.
Import Scenario Cases.

(** A well-formed one-record answer is discarded when the status came in
    failed. *)
Lemma get_candidates_failed_status_on_entry_witness :
  scraper_disabled (self fresh_failed) = false /\
  status_ok (status_dic fresh_failed) = false /\
  json_loads E0 "one" = Some (JDict dino_payload) /\
  exists w',
    get_candidates E0 term (rom "dino") None "MAME" fresh_failed
    = (Ret None, w') /\
    disk_caches (self w') = disk_caches (self fresh_failed) /\
    trace w' = [NetGet (query_url "dino")].
Proof.
  split; [reflexivity|]. split; [reflexivity|]. split; [reflexivity|].
  destruct (get_candidates_failed_status_on_entry E0 term (rom "dino") None
              "MAME" fresh_failed)
    as (w' & Hrun & _ & Hcache & Htrace); try reflexivity.
  exists w'. repeat split; assumption.
Defined.

Lemma get_candidates_malformed_payload_witness :
  scraper_disabled (self fresh) = false /\
  status_ok (status_dic fresh) = true /\
  result_ error_payload = None /\
  exists w',
    get_candidates E_odd term (rom "dino") None "MAME" fresh
    = (Raise (KeyError "result"), w') /\
    status_dic w' = status_dic fresh /\
    disk_caches (self w') = disk_caches (self fresh).
Proof.
  split; [reflexivity|]. split; [reflexivity|]. split; [reflexivity|].
  apply (get_candidates_malformed_payload E_odd term (rom "dino") None
           "MAME" "odd" (JDict error_payload) fresh); reflexivity.
Defined.

End ResolverMoreScenario.

(** * Further properties of the extractor *)

Section ExtractorMore.
Variable E : collaborators.


(** The outcome of [get_metadata] is a function of the scraper object. *)
Lemma get_metadata_reads_self w1 w2 :
  self w1 = self w2 ->
  fst (get_metadata E w1) = fst (get_metadata E w2).
Proof.
  intros Hself.
  destruct w1 as [s1 st1 t1], w2 as [s2 st2 t2]. cbn in Hself. subst s2.
  unfold get_metadata, internal_cache_payload, _check_disk_cache,
    _retrieve_from_disk_cache, first_game, getitem. run.
  split_run; reflexivity.
Qed.

(** What [get_metadata] does to the world: only cache events are appended. *)
Lemma get_metadata_frame w :
  self (snd (get_metadata E w)) = self w /\
  status_dic (snd (get_metadata E w)) = status_dic w /\
  exists tl,
    trace (snd (get_metadata E w)) = (trace w ++ tl)%list /\
    forall any_url, NetGet any_url ∉ tl.
Proof.
  unfold get_metadata, internal_cache_payload, _check_disk_cache,
    _retrieve_from_disk_cache, first_game, getitem. run.
  split_run; repeat split;
    first [ exists []; rewrite app_nil_r; split; [reflexivity|];
            intros ?; apply not_elem_of_nil
          | rewrite <- ?app_assoc; eexists; split; [reflexivity|];
            intros ?; cbn; rewrite ?not_elem_of_cons;
            repeat split; try discriminate; apply not_elem_of_nil ].
Qed.

(** The outcome of [get_assets] is a function of the scraper object and of
    the status flag. *)
Lemma get_assets_reads_self asset_info_id w1 w2 :
  self w1 = self w2 ->
  status_ok (status_dic w1) = status_ok (status_dic w2) ->
  fst (get_assets E asset_info_id w1) = fst (get_assets E asset_info_id w2).
Proof.
  intros Hself Hst.
  destruct w1 as [s1 [ok1 m1] t1], w2 as [s2 [ok2 m2] t2].
  cbn in Hself, Hst. subst s2 ok2.
  unfold get_assets, candidate_id, internal_cache_payload, _check_disk_cache,
    _retrieve_from_disk_cache, first_game, getitem, get_status. run.
  split_run; reflexivity.
Qed.

Lemma get_assets_frame asset_info_id w :
  self (snd (get_assets E asset_info_id w)) = self w /\
  status_dic (snd (get_assets E asset_info_id w)) = status_dic w /\
  exists tl,
    trace (snd (get_assets E asset_info_id w)) = (trace w ++ tl)%list /\
    forall any_url, NetGet any_url ∉ tl.
Proof.
  unfold get_assets, candidate_id, internal_cache_payload, _check_disk_cache,
    _retrieve_from_disk_cache, first_game, getitem, get_status. run.
  split_run; repeat split;
    first [ exists []; rewrite app_nil_r; split; [reflexivity|];
            intros ?; apply not_elem_of_nil
          | rewrite <- ?app_assoc; eexists; split; [reflexivity|];
            intros ?; cbn; rewrite ?not_elem_of_cons;
            repeat split; try discriminate; apply not_elem_of_nil ].
Qed.

(** [get_metadata] is read-only and repeatable, in any world: it leaves the
    scraper object (cache included) and the status as they were, appends no
    network event, and a second call right after it ends the same way
    (same record, or same fault). *)
Theorem get_metadata_repeatable w :
  self (snd (get_metadata E w)) = self w /\
  status_dic (snd (get_metadata E w)) = status_dic w /\
  (exists tl,
     trace (snd (get_metadata E w)) = (trace w ++ tl)%list /\
     forall any_url, NetGet any_url ∉ tl) /\
  fst (get_metadata E (snd (get_metadata E w))) = fst (get_metadata E w).
Proof.
  destruct (get_metadata_frame w) as (Hself & Hst & Htr).
  repeat split; try assumption.
  apply get_metadata_reads_self. exact Hself.
Qed.

(** [get_assets] is read-only as well: scraper object and status untouched,
    no network event; asking again, for the same or after another kind,
    gives what a first call gives, and [get_metadata] is not affected by
    asset calls made before it. *)
Theorem get_assets_repeatable asset_info_id other_id w :
  self (snd (get_assets E asset_info_id w)) = self w /\
  status_dic (snd (get_assets E asset_info_id w)) = status_dic w /\
  (exists tl,
     trace (snd (get_assets E asset_info_id w)) = (trace w ++ tl)%list /\
     forall any_url, NetGet any_url ∉ tl) /\
  fst (get_assets E asset_info_id (snd (get_assets E other_id w)))
  = fst (get_assets E asset_info_id w) /\
  fst (get_metadata E (snd (get_assets E other_id w)))
  = fst (get_metadata E w).
Proof.
  destruct (get_assets_frame asset_info_id w) as (Hself & Hst & Htr).
  destruct (get_assets_frame other_id w) as (Hself' & Hst' & _).
  repeat split; try assumption.
  - apply get_assets_reads_self; [exact Hself'|by rewrite Hst'].
  - apply get_metadata_reads_self. exact Hself'.
Qed.

(** A cached record that lacks one of the six projected fields makes
    [get_metadata] raise a key error for a missing field; no partial record
    is returned. *)
Theorem get_metadata_missing_field d g rest field w :
  scraper_disabled (self w) = false ->
  disk_caches (self w) !! (CACHE_INTERNAL, cache_key (self w)) = Some d ->
  result_ d = Some (g :: rest) ->
  field ∈ ["title"; "year"; "genre"; "manufacturer"; "players"; "history"] ->
  g !! field = None ->
  exists missing w',
    get_metadata E w = (Raise (KeyError missing), w') /\
    missing ∈ ["title"; "year"; "genre"; "manufacturer"; "players"; "history"] /\
    g !! missing = None.
Proof.
  intros Hen Hc Hres Hfield Hnone.
  unfold get_metadata. unfold bind at 1. unfold gets at 1. rewrite Hen.
  erewrite bind_Ret by (apply internal_cache_payload_hit; exact Hc).
  unfold first_game, getitem. rewrite Hres. run.
  destruct (g !! "title") eqn:Ht; run;
    [|eexists _, _; split; [reflexivity|]; split; [in_list|exact Ht]].
  destruct (g !! "year") eqn:Hy; run;
    [|eexists _, _; split; [reflexivity|]; split; [in_list|exact Hy]].
  destruct (g !! "genre") eqn:Hg; run;
    [|eexists _, _; split; [reflexivity|]; split; [in_list|exact Hg]].
  destruct (g !! "manufacturer") eqn:Hm; run;
    [|eexists _, _; split; [reflexivity|]; split; [in_list|exact Hm]].
  destruct (g !! "players") eqn:Hp; run;
    [|eexists _, _; split; [reflexivity|]; split; [in_list|exact Hp]].
  destruct (g !! "history") eqn:Hh; run;
    [|eexists _, _; split; [reflexivity|]; split; [in_list|exact Hh]].
  exfalso. repeat rewrite elem_of_cons in Hfield.
  destruct Hfield as [->|[->|[->|[->|[->|[->|Hnil]]]]]];
    try congruence.
  by apply elem_of_nil in Hnil.
Qed.

(** A cached payload without records cannot be extracted from: with an empty
    record list both extractors raise an index error, with no ['result']
    member a key error (for [get_assets], once a candidate is set). *)
Theorem extraction_on_recordless_payload asset_info_id c i d w :
  scraper_disabled (self w) = false ->
  candidate (self w) = Some c ->
  c !! "id" = Some i ->
  disk_caches (self w) !! (CACHE_INTERNAL, cache_key (self w)) = Some d ->
  match result_ d with Some [] | None => True | Some (_ :: _) => False end ->
  let fault := match result_ d with
               | None => KeyError "result"
               | Some _ => IndexError
               end in
  fst (get_metadata E w) = Raise fault /\
  fst (get_assets E asset_info_id w) = Raise fault.
Proof.
  intros Hen Hc Hid Hcache Hres fault. subst fault. split.
  - unfold get_metadata. unfold bind at 1. unfold gets at 1. rewrite Hen.
    erewrite bind_Ret by (apply internal_cache_payload_hit; exact Hcache).
    unfold first_game. destruct (result_ d) as [[|g rest]|]; [| |];
      try contradiction; reflexivity.
  - unfold get_assets. unfold bind at 1. unfold gets at 1. rewrite Hen.
    erewrite bind_Ret; [|unfold candidate_id, getitem; run; rewrite Hc, Hid;
                         reflexivity].
    erewrite bind_Ret by (apply internal_cache_payload_hit; exact Hcache).
    unfold first_game. destruct (result_ d) as [[|g rest]|]; [| |];
      try contradiction; reflexivity.
Qed.

(** *** Assets *)

Lemma spec_asset_entry_kind kind label url :
  spec_asset_entry E kind label url !! "asset_ID" = Some (VAsset kind).
Proof. apply spec_asset_entry_lookup. Qed.

(** The triples of one kind: one for each derived kind, none for the others. *)
Lemma triples_of_kind asset_info_id :
  filter (fun t : asset_ID * string * string => t.1.1 = asset_info_id)
    spec_asset_triples
  = match asset_info_id with
    | ASSET_BANNER_ID =>
        [(ASSET_BANNER_ID, "url_image_marquee", "Banner (Marquee)")]
    | ASSET_TITLE_ID =>
        [(ASSET_TITLE_ID, "url_image_title", "Title screenshot")]
    | ASSET_SNAP_ID =>
        [(ASSET_SNAP_ID, "url_image_ingame", "Snap screenshot")]
    | ASSET_BOXFRONT_ID =>
        [(ASSET_BOXFRONT_ID, "url_image_cabinet", "BoxFront (Cabinet)")]
    | ASSET_FLYER_ID => [(ASSET_FLYER_ID, "url_image_flyer", "Flyer")]
    | ASSET_BOXBACK_ID | ASSET_CARTRIDGE_ID => []
    end.
Proof. destruct asset_info_id; reflexivity. Qed.

(** What [get_assets] returns past its guards, by kind. *)
Lemma get_assets_by_kind asset_info_id c i d g rest w :
  scraper_disabled (self w) = false ->
  candidate (self w) = Some c ->
  c !! "id" = Some i ->
  status_ok (status_dic w) = true ->
  disk_caches (self w) !! (CACHE_INTERNAL, cache_key (self w)) = Some d ->
  result_ d = Some (g :: rest) ->
  fst (get_assets E asset_info_id w)
  = Ret (Some (omap (fun t : asset_ID * string * string =>
                       spec_asset_entry E t.1.1 t.2 <$> g !! t.1.2)
                 (filter (fun t : asset_ID * string * string =>
                            t.1.1 = asset_info_id) spec_asset_triples))).
Proof.
  intros Hen Hc Hid Hst Hcache Hres.
  erewrite get_assets_cached by eauto.
  rewrite _retrieve_all_assets_spec. unfold spec_derive_assets.
  rewrite filter_derived_by_kind. reflexivity.
Qed.

(** A status that came in failed makes [get_assets] return [None] instead of
    a list, after it has read the cache. *)
Theorem get_assets_failed_status_returns_None asset_info_id c i d g rest w :
  scraper_disabled (self w) = false ->
  candidate (self w) = Some c ->
  c !! "id" = Some i ->
  status_ok (status_dic w) = false ->
  disk_caches (self w) !! (CACHE_INTERNAL, cache_key (self w)) = Some d ->
  result_ d = Some (g :: rest) ->
  get_assets E asset_info_id w
  = (Ret None,
     log_event (CacheLoad CACHE_INTERNAL (cache_key (self w)))
       (log_event (CacheCheck CACHE_INTERNAL (cache_key (self w))) w)).
Proof.
  intros Hen Hc Hid Hst Hcache Hres. unfold get_assets.
  unfold bind at 1. unfold gets at 1. rewrite Hen.
  erewrite bind_Ret; [|unfold candidate_id, getitem; run; rewrite Hc, Hid;
                       reflexivity].
  erewrite bind_Ret by (apply internal_cache_payload_hit; exact Hcache).
  unfold first_game, get_status. rewrite Hres. run. cbn. rewrite Hst.
  reflexivity.
Qed.

(** [get_assets] returns at most one entry.  It returns none when the raw
    field of the requested kind is absent, and none at all for the box-back
    and cartridge kinds, whatever the record holds. *)
Theorem get_assets_at_most_one_entry asset_info_id c i d g rest w :
  scraper_disabled (self w) = false ->
  candidate (self w) = Some c ->
  c !! "id" = Some i ->
  status_ok (status_dic w) = true ->
  disk_caches (self w) !! (CACHE_INTERNAL, cache_key (self w)) = Some d ->
  result_ d = Some (g :: rest) ->
  exists asset_list,
    fst (get_assets E asset_info_id w) = Ret (Some asset_list) /\
    (length asset_list <= 1)%nat /\
    (asset_info_id = ASSET_BOXBACK_ID \/ asset_info_id = ASSET_CARTRIDGE_ID ->
     asset_list = []) /\
    (forall field label,
       (asset_info_id, field, label) ∈ spec_asset_triples ->
       g !! field = None -> asset_list = []).
Proof.
  intros Hen Hc Hid Hst Hcache Hres.
  eexists. split; [eapply get_assets_by_kind; eauto|].
  rewrite triples_of_kind. repeat split.
  - destruct asset_info_id; cbn [omap list_omap fst snd];
      try match goal with |- context [g !! ?k] => destruct (g !! k) end;
      cbn; lia.
  - intros [->| ->]; reflexivity.
  - intros field label Hin Hnone. unfold spec_asset_triples in Hin.
    repeat rewrite elem_of_cons in Hin.
    destruct Hin as [Heq|[Heq|[Heq|[Heq|[Heq|Hnil]]]]];
      try (by apply elem_of_nil in Hnil);
      injection Heq as -> -> ->; cbn; rewrite Hnone; reflexivity.
Qed.

(** Every kind the scraper declares as supported is served: it has a raw
    field whose presence in the cached record makes [get_assets] return
    exactly one entry, carrying that field's value as URL. *)
Theorem supported_kind_is_served asset_info_id :
  supports_asset_ID asset_info_id = true ->
  exists field,
    forall c i d (g : gameinfo_dic) rest url w,
      scraper_disabled (self w) = false ->
      candidate (self w) = Some c ->
      c !! "id" = Some i ->
      status_ok (status_dic w) = true ->
      disk_caches (self w) !! (CACHE_INTERNAL, cache_key (self w)) = Some d ->
      result_ d = Some (g :: rest) ->
      g !! field = Some url ->
      exists entry,
        fst (get_assets E asset_info_id w) = Ret (Some [entry]) /\
        entry !! "asset_ID" = Some (VAsset asset_info_id) /\
        entry !! "url" = Some (VScalar url).
Proof.
  intros Hsup.
  destruct asset_info_id; try discriminate Hsup;
    [exists "url_image_title" | exists "url_image_ingame"
    | exists "url_image_cabinet" | exists "url_image_flyer"];
    intros c i d g rest url w Hen Hc Hid Hst Hcache Hres Hurl;
    (eexists; split;
     [erewrite get_assets_by_kind by eauto; rewrite triples_of_kind;
      cbn; rewrite Hurl; reflexivity
     |split; apply spec_asset_entry_lookup]).
Qed.

(** The derived list keeps the fixed order: the kinds of the entries of
    [_retrieve_all_assets], read in order, are a sublist of banner, title,
    snap, box-front, flyer; so there are at most five entries and no kind
    occurs twice. *)
Theorem _retrieve_all_assets_kinds_in_order (g : gameinfo_dic) :
  (fun a : gmap string pyval => a !! "asset_ID")
    <$> _retrieve_all_assets E g
  `sublist_of`
  (Some <$> (VAsset <$> [ASSET_BANNER_ID; ASSET_TITLE_ID; ASSET_SNAP_ID;
                         ASSET_BOXFRONT_ID; ASSET_FLYER_ID])) /\
  (length (_retrieve_all_assets E g) <= 5)%nat.
Proof.
  assert (Hsub :
    (fun a : gmap string pyval => a !! "asset_ID")
      <$> _retrieve_all_assets E g
    `sublist_of`
    (Some <$> (VAsset <$> [ASSET_BANNER_ID; ASSET_TITLE_ID; ASSET_SNAP_ID;
                           ASSET_BOXFRONT_ID; ASSET_FLYER_ID]))).
  { rewrite _retrieve_all_assets_spec.
    unfold spec_derive_assets, spec_asset_triples.
    cbn [omap list_omap fst snd fmap list_fmap].
    destruct (g !! "url_image_marquee"), (g !! "url_image_title"),
      (g !! "url_image_ingame"), (g !! "url_image_cabinet"),
      (g !! "url_image_flyer");
      cbn [fmap option_fmap option_map list_fmap];
      rewrite ?spec_asset_entry_kind;
      repeat first [ apply sublist_nil_l
                   | apply sublist_skip
                   | apply sublist_cons ]. }
  split; [exact Hsub|].
  apply sublist_length in Hsub. rewrite !length_fmap in Hsub. exact Hsub.
Qed.

End ExtractorMore.

(** * Resolution followed by extraction *)

Section Session.
Variable E : collaborators.
Variables (search_term : string) (rom_FN : FileName)
          (rom_checksums_FN : option FileName) (platform : string).

Local Abbreviation url := (query_url (getBaseNoExt rom_FN)).



(** A resolution that finds no record caches nothing: if the key was not
    cached before, [get_metadata] right after it raises the logic error. *)
Theorem no_match_then_get_metadata_fails raw d w :
  scraper_disabled (self w) = false ->
  status_ok (status_dic w) = true ->
  get_URL E url = (Some raw, 200) ->
  json_loads E raw = Some (JDict d) ->
  result_ d = Some [] ->
  disk_caches (self w) !! (CACHE_INTERNAL, cache_key (self w)) = None ->
  exists w1,
    get_candidates E search_term rom_FN rom_checksums_FN platform w
    = (Ret (Some []), w1) /\
    fst (get_metadata E w1) = Raise (ValueError "Logic error").
Proof.
  intros Hen Hst Hurl Hjs Hres Hmiss.
  rewrite (get_candidates_fetched E search_term rom_FN rom_checksums_FN
             platform raw (JDict d)) by assumption.
  unfold get_candidates_policy, getitem_result. rewrite Hres. run.
  eexists. split; [reflexivity|].
  unfold get_metadata. unfold bind at 1. unfold gets at 1. cbn. rewrite Hen.
  erewrite bind_Raise by (apply internal_cache_payload_miss; exact Hmiss).
  reflexivity.
Qed.

End Session.

Section ResolveURL.
Variable E : collaborators.

(** Resolving an asset that [get_assets] returned gives the raw field's value
    twice over, as URL and as URL for the log (nothing is cleaned), the same
    value the entry carries as thumbnail; the state is not touched.  The
    file extension is [png] whatever the asset. *)
Theorem resolve_asset_URL_of_returned_asset asset_info_id c i d g rest w
    asset_list selected_asset :
  scraper_disabled (self w) = false ->
  candidate (self w) = Some c ->
  c !! "id" = Some i ->
  status_ok (status_dic w) = true ->
  disk_caches (self w) !! (CACHE_INTERNAL, cache_key (self w)) = Some d ->
  result_ d = Some (g :: rest) ->
  fst (get_assets E asset_info_id w) = Ret (Some asset_list) ->
  selected_asset ∈ asset_list ->
  exists field raw_url,
    g !! field = Some raw_url /\
    selected_asset !! "url_thumb" = Some (VScalar raw_url) /\
    (forall w',
       resolve_asset_URL selected_asset w'
       = (Ret (VScalar raw_url, VScalar raw_url), w')) /\
    resolve_asset_URL_extension selected_asset (VScalar raw_url) = "png".
Proof.
  intros Hen Hc Hid Hst Hcache Hres Hrun Hin.
  erewrite get_assets_by_kind in Hrun by eauto.
  injection Hrun as <-.
  apply list_elem_of_omap in Hin as ([[kind field] label] & _ & Hentry).
  cbn in Hentry. apply fmap_Some in Hentry as (raw_url & Hfield & ->).
  exists field, raw_url.
  destruct (spec_asset_entry_lookup E kind label raw_url)
    as (_ & _ & Hthumb & Hurl).
  repeat split; try assumption.
  intros w'. unfold resolve_asset_URL. rewrite Hurl. reflexivity.
Qed.

End ResolveURL.

Section MoreScenario.
Import Scenario Cases.

Lemma get_metadata_missing_field_witness :
  scraper_disabled (self partial) = false /\
  dino_without_history !! "history" = None /\
  exists missing w',
    get_metadata E0 partial = (Raise (KeyError missing), w') /\
    dino_without_history !! missing = None.
Proof.
  split; [reflexivity|]. split; [reflexivity|].
  destruct (get_metadata_missing_field E0 partial_payload
              dino_without_history [] "history" partial)
    as (missing & w' & Hrun & _ & Hnone); try reflexivity.
  - in_list.
  - exists missing, w'. split; assumption.
Defined.

Lemma extraction_on_recordless_payload_witness :
  scraper_disabled (self cached) = false /\
  result_ empty_payload = Some [] /\
  fst (get_metadata E0 cached) = Raise IndexError /\
  fst (get_assets E0 ASSET_SNAP_ID cached) = Raise IndexError.
Proof.
  split; [reflexivity|]. split; [reflexivity|].
  apply (extraction_on_recordless_payload E0 ASSET_SNAP_ID
           (<["id" := SStr "dino"]> ∅) (SStr "dino") empty_payload cached);
    first [reflexivity | exact I].
Defined.

Lemma get_assets_failed_status_returns_None_witness :
  scraper_disabled (self resolved_failed) = false /\
  status_ok (status_dic resolved_failed) = false /\
  fst (get_assets E0 ASSET_SNAP_ID resolved_failed) = Ret None.
Proof.
  split; [reflexivity|]. split; [reflexivity|].
  rewrite (get_assets_failed_status_returns_None E0 ASSET_SNAP_ID
             (<["id" := SStr "dino"]> ∅) (SStr "dino") dino_payload dino []
             resolved_failed); reflexivity.
Defined.

Lemma get_assets_at_most_one_entry_witness :
  scraper_disabled (self resolved) = false /\
  status_ok (status_dic resolved) = true /\
  exists asset_list,
    fst (get_assets E0 ASSET_FLYER_ID resolved) = Ret (Some asset_list) /\
    (length asset_list <= 1)%nat.
Proof.
  split; [reflexivity|]. split; [reflexivity|].
  destruct (get_assets_at_most_one_entry E0 ASSET_FLYER_ID
              (<["id" := SStr "dino"]> ∅) (SStr "dino") dino_payload dino []
              resolved)
    as (asset_list & Hrun & Hlen & _); try reflexivity.
  exists asset_list. split; assumption.
Defined.

Lemma supported_kind_is_served_witness :
  supports_asset_ID ASSET_SNAP_ID = true /\
  exists field : string,
    forall c i d (g : gameinfo_dic) rest url w,
      scraper_disabled (self w) = false ->
      candidate (self w) = Some c ->
      c !! "id" = Some i ->
      status_ok (status_dic w) = true ->
      disk_caches (self w) !! (CACHE_INTERNAL, cache_key (self w)) = Some d ->
      result_ d = Some (g :: rest) ->
      g !! field = Some url ->
      exists entry,
        fst (get_assets E0 ASSET_SNAP_ID w) = Ret (Some [entry]) /\
        entry !! "asset_ID" = Some (VAsset ASSET_SNAP_ID) /\
        entry !! "url" = Some (VScalar url).
Proof.
  split; [reflexivity|].
  apply (supported_kind_is_served E0 ASSET_SNAP_ID). reflexivity.
Defined.


Lemma no_match_then_get_metadata_fails_witness :
  scraper_disabled (self fresh) = false /\
  disk_caches (self fresh) !! (CACHE_INTERNAL, cache_key (self fresh)) = None /\
  exists w1,
    get_candidates E0 term (rom "nomatch") None "MAME" fresh
    = (Ret (Some []), w1) /\
    fst (get_metadata E0 w1) = Raise (ValueError "Logic error").
Proof.
  split; [reflexivity|]. split; [reflexivity|].
  apply (no_match_then_get_metadata_fails E0 term (rom "nomatch") None
           "MAME" "zero" empty_payload fresh); reflexivity.
Defined.

Lemma resolve_asset_URL_of_returned_asset_witness :
  scraper_disabled (self resolved) = false /\
  status_ok (status_dic resolved) = true /\
  exists field raw_url,
    dino !! field = Some raw_url /\
    forall w',
      resolve_asset_URL
        (spec_asset_entry E0 ASSET_SNAP_ID "Snap screenshot"
           (SStr "http://.../dino_snap.png")) w'
      = (Ret (VScalar raw_url, VScalar raw_url), w').
Proof.
  split; [reflexivity|]. split; [reflexivity|].
  destruct (resolve_asset_URL_of_returned_asset E0 ASSET_SNAP_ID
              (<["id" := SStr "dino"]> ∅) (SStr "dino") dino_payload dino []
              resolved
              [spec_asset_entry E0 ASSET_SNAP_ID "Snap screenshot"
                 (SStr "http://.../dino_snap.png")]
              (spec_asset_entry E0 ASSET_SNAP_ID "Snap screenshot"
                 (SStr "http://.../dino_snap.png")))
    as (field & raw_url & Hfield & _ & Hresolve & _);
    try (vm_compute; reflexivity).
  - apply list_elem_of_here.
  - exists field, raw_url. split; assumption.
Defined.

End MoreScenario.

(** * Shape of the dictionaries handed out *)

Section Shapes.
Variable E : collaborators.
Variables (search_term : string) (rom_FN : FileName)
          (rom_checksums_FN : option FileName) (platform : string).

Local Abbreviation url := (query_url (getBaseNoExt rom_FN)).

(** The candidate of a one-record resolution: its display name is the
    record's title, its platform and scraper platform are both the platform
    argument, and every key other than the five it sets keeps the value of
    the base class's fresh candidate dictionary. *)
Theorem get_candidates_candidate_fields raw d g title w :
  scraper_disabled (self w) = false ->
  status_ok (status_dic w) = true ->
  get_URL E url = (Some raw, 200) ->
  json_loads E raw = Some (JDict d) ->
  result_ d = Some [g] ->
  g !! "title" = Some title ->
  exists c,
    fst (get_candidates E search_term rom_FN rom_checksums_FN platform w)
    = Ret (Some [c]) /\
    c !! "display_name" = Some title /\
    c !! "platform" = Some (SStr platform) /\
    c !! "scraper_platform" = Some (SStr platform) /\
    forall key,
      key ∉ ["id"; "display_name"; "platform"; "scraper_platform"; "order"] ->
      c !! key = new_candidate_dic E !! key.
Proof.
  intros Hen Hst Hurl Hjs Hres Htitle.
  rewrite (get_candidates_fetched E search_term rom_FN rom_checksums_FN
             platform raw (JDict d)) by assumption.
  unfold get_candidates_policy, getitem_result, getitem, _update_disk_cache.
  rewrite Hres. run. rewrite Htitle. run.
  eexists. split; [reflexivity|].
  repeat split; try by simplify_map_eq.
  intros key Hkey. repeat rewrite not_elem_of_cons in Hkey.
  destruct Hkey as (? & ? & ? & ? & ? & _).
  by rewrite !lookup_insert_ne by done.
Qed.

(** Every entry [_retrieve_all_assets] derives comes from one of the five
    raw fields: it carries that field's value as URL and thumbnail, the kind
    and display label that go with the field, and leaves every other key of
    the base class's fresh asset dictionary as it was. *)
Theorem _retrieve_all_assets_entry_shape (g : gameinfo_dic) entry :
  entry ∈ _retrieve_all_assets E g ->
  exists kind field label raw_url,
    (kind, field, label)
      ∈ [ (ASSET_BANNER_ID, "url_image_marquee", "Banner (Marquee)");
          (ASSET_TITLE_ID, "url_image_title", "Title screenshot");
          (ASSET_SNAP_ID, "url_image_ingame", "Snap screenshot");
          (ASSET_BOXFRONT_ID, "url_image_cabinet", "BoxFront (Cabinet)");
          (ASSET_FLYER_ID, "url_image_flyer", "Flyer") ] /\
    g !! field = Some raw_url /\
    entry !! "asset_ID" = Some (VAsset kind) /\
    entry !! "display_name" = Some (VScalar (SStr label)) /\
    entry !! "url" = Some (VScalar raw_url) /\
    entry !! "url_thumb" = Some (VScalar raw_url) /\
    forall key,
      key ∉ ["asset_ID"; "display_name"; "url_thumb"; "url"] ->
      entry !! key = new_assetdata_dic E !! key.
Proof.
  rewrite _retrieve_all_assets_spec. unfold spec_derive_assets.
  intros Hin.
  apply list_elem_of_omap in Hin as ([[kind field] label] & Hin & Hentry).
  cbn in Hentry. apply fmap_Some in Hentry as (raw_url & Hfield & ->).
  exists kind, field, label, raw_url.
  destruct (spec_asset_entry_lookup E kind label raw_url)
    as (Hk & Hl & Ht & Hu).
  repeat split; try assumption.
  intros key Hkey. repeat rewrite not_elem_of_cons in Hkey.
  destruct Hkey as (? & ? & ? & ? & _). unfold spec_asset_entry.
  by rewrite !lookup_insert_ne by done.
Qed.

End Shapes.

Section ShapesScenario.
Import Scenario.

Lemma get_candidates_candidate_fields_witness :
  scraper_disabled (self fresh) = false /\
  status_ok (status_dic fresh) = true /\
  exists c,
    fst (get_candidates E0 term (rom "dino") None "MAME" fresh)
    = Ret (Some [c]) /\
    c !! "display_name"
    = Some (SStr "Cadillacs and Dinosaurs (World 930201)") /\
    c !! "platform" = Some (SStr "MAME") /\
    c !! "scraper_platform" = Some (SStr "MAME").
Proof.
  split; [reflexivity|]. split; [reflexivity|].
  destruct (get_candidates_candidate_fields E0 term (rom "dino") None "MAME"
              "one" dino_payload dino
              (SStr "Cadillacs and Dinosaurs (World 930201)") fresh)
    as (c & Hrun & Hname & Hp & Hsp & _); try reflexivity.
  exists c. repeat split; assumption.
Defined.

Lemma _retrieve_all_assets_entry_shape_witness :
  spec_asset_entry E0 ASSET_SNAP_ID "Snap screenshot"
    (SStr "http://.../dino_snap.png") ∈ _retrieve_all_assets E0 dino /\
  exists kind field label raw_url,
    dino !! field = Some raw_url /\
    spec_asset_entry E0 ASSET_SNAP_ID "Snap screenshot"
      (SStr "http://.../dino_snap.png") !! "asset_ID" = Some (VAsset kind) /\
    spec_asset_entry E0 ASSET_SNAP_ID "Snap screenshot"
      (SStr "http://.../dino_snap.png") !! "display_name"
    = Some (VScalar (SStr label)).
Proof.
  assert (Hin :
    spec_asset_entry E0 ASSET_SNAP_ID "Snap screenshot"
      (SStr "http://.../dino_snap.png") ∈ _retrieve_all_assets E0 dino).
  { vm_compute. apply list_elem_of_further, list_elem_of_here. }
  split; [exact Hin|].
  destruct (_retrieve_all_assets_entry_shape E0 dino _ Hin)
    as (kind & field & label & raw_url & _ & Hfield & Hk & Hl & _).
  exists kind, field, label, raw_url. repeat split; assumption.
Defined.

End ShapesScenario.
